(** * A shallow embedding of the Malloy MCP server (malloy_mcp_server)

    The module-level client of [server.py], its startup catalog loader
    [register_resources], the two query tools ([tools.py] and
    [tools/query_executor.py]) and the resource registration of
    [resources.py].  Remote calls of the publisher client are modelled as
    functions returning either a value or a raised Python exception. *)

From Stdlib Require Import String Ascii List ZArith QArith Bool Lia.
Import ListNotations.
Open Scope string_scope.

(** ** Python values and exceptions shared by all modules *)

(** A decoded JSON value (what [json.loads] returns and [model_dump]
    produces). *)
#[warnings="-register-all"]
Inductive json : Type :=
| JNull
| JBool (b : bool)
| JNum (z : Z)
| JStr (s : string)
| JArr (l : list json)
| JObj (l : list (string * json)).

(** The Python exceptions the code raises or catches. [PublisherError] is
    whatever the publisher client raises on a failed remote call. *)
Inductive exn : Type :=
| PublisherError (msg : string)
| RuntimeError (msg : string)
| ValueError (msg : string)
| TypeError (msg : string)
| JSONDecodeError (msg : string)
| ValidationError (msg : string)
| MalloyError (message : string) (context : list (string * string)).

(** [str(e)]: the message an exception was built with ([MalloyError]
    passes its message to [Exception.__init__]). *)
Definition exn_str (e : exn) : string :=
  match e with
  | PublisherError m | RuntimeError m | ValueError m | TypeError m
  | JSONDecodeError m | ValidationError m | MalloyError m _ => m
  end.

(** A computation that returns a value or raises. *)
Inductive result (A : Type) : Type :=
| Ok (a : A)
| Raise (e : exn).
Arguments Ok {A} a.
Arguments Raise {A} e.

Definition bind {A B : Type} (r : result A) (k : A -> result B) : result B :=
  match r with
  | Ok a => k a
  | Raise e => Raise e
  end.

Notation "x <- r ;; k" := (bind r (fun x => k))
  (at level 61, r at next level, right associativity).

(** [try: r except Exception as e: h(e)] *)
Definition catch_all {A : Type} (r : result A) (h : exn -> result A) : result A :=
  match r with
  | Ok a => Ok a
  | Raise e => h e
  end.

(** Python's [or] on an optional string: [None] and [""] are falsy. *)
Definition py_or (x : option string) (dflt : string) : string :=
  match x with
  | Some s => if String.eqb s "" then dflt else s
  | None => dflt
  end.

(** Python truthiness of an optional string. *)
Definition truthy (x : option string) : bool :=
  match x with
  | Some s => negb (String.eqb s "")
  | None => false
  end.

(** Association-list lookup (first binding wins). *)
Fixpoint assoc {A : Type} (k : string) (l : list (string * A)) : option A :=
  match l with
  | [] => None
  | (k', v) :: rest => if String.eqb k k' then Some v else assoc k rest
  end.

(** ** server.py, lines 38-40: the module-level publisher client *)
Module Connection.

(** The process environment: a lookup from variable names to values. *)
Definition environ := string -> option string.

(** The observable effects of connecting: constructing a client at a URL,
    issuing a verification call, waiting before a retry. *)
Inductive event : Type :=
| Construct (url : string)
| Verify
| Sleep (delay : Q).

Record publisher_client : Type := MalloyPublisherClient { base_url : string }.

Definition PROJECT_NAME : string := "home".

(** [client = MalloyPublisherClient("http://localhost:4000")], executed
    once when [server.py] is imported.  The URL is a literal; the
    environment is not read, no verification call is made and nothing is
    retried.  Returns the events performed and the resulting client. *)
Definition client_at_import (env : environ) : list event * result publisher_client :=
  let url := "http://localhost:4000" in
  ([Construct url], Ok (MalloyPublisherClient url)).

(** Number of client constructions (connection attempts) in a trace. *)
Definition attempts (tr : list event) : nat :=
  length (filter (fun ev => match ev with Construct _ => true | _ => false end) tr).

(** The delays waited in a trace, in order. *)
Fixpoint sleeps (tr : list event) : list Q :=
  match tr with
  | [] => []
  | Sleep d :: rest => d :: sleeps rest
  | _ :: rest => sleeps rest
  end.

(** The environment of a deployment that sets the publisher URL. *)
Definition env_with_url : environ :=
  fun v => if String.eqb v "MALLOY_PUBLISHER_ROOT_URL"
           then Some "http://test-publisher:5000" else None.

End Connection.

(** ** server.py, lines 256-334: the startup catalog loader *)
Module Catalog.

Import Connection.

(** The publisher's objects, as far as [register_resources] reads them. *)
Record project : Type := Project { project_description : option string }.

Record package : Type := Package {
  pkg_name : string;
  pkg_description : option string;
  pkg_version : option string }.

Record model_ref : Type := Model {
  model_path : string;
  model_description : option string }.

Record model_details : Type := ModelDetails {
  details_sources : list string;
  details_queries : list string;
  details_schema : json }.

(** The remote catalog as seen through the client: every call returns a
    value or raises. *)
Record publisher : Type := Publisher {
  get_project : string -> result project;
  list_packages : string -> result (list package);
  list_models : string -> string -> result (list model_ref);
  get_model : string -> string -> string -> result model_details }.

(** models/resources.py *)
Record MalloyPackageMetadata : Type := MkPackageMetadata {
  pm_name : string;
  pm_description : option string;
  pm_version : option string;
  pm_models : list string }.

Record MalloyModelMetadata : Type := MkModelMetadata {
  mm_path : string;
  mm_description : option string;
  mm_sources : list string;
  mm_queries : list string;
  mm_model_schema : list (string * json) }.

Record MalloyProjectMetadata : Type := MkProjectMetadata {
  prj_name : string;
  prj_description : option string;
  prj_packages : list MalloyPackageMetadata;
  prj_models : list MalloyModelMetadata }.

(** The payload of a registered resource ([model_dump()] of one of the
    metadata objects). *)
Inductive resource_data : Type :=
| ProjectData (m : MalloyProjectMetadata)
| PackageData (m : MalloyPackageMetadata)
| ModelData (m : MalloyModelMetadata).

Record resource : Type := Resource {
  res_name : string;
  res_description : string;
  res_data : resource_data;
  res_version : string }.

Inductive log_entry : Type :=
| LogError (msg : string)
| LogWarning (msg : string).

(** Lines 268-277: the first loop, one package metadata per package. *)
Fixpoint collect_package_metadata (c : publisher) (packages : list package)
  : result (list MalloyPackageMetadata) :=
  match packages with
  | [] => Ok []
  | pkg :: rest =>
      models <- list_models c PROJECT_NAME (pkg_name pkg) ;;
      tail <- collect_package_metadata c rest ;;
      Ok (MkPackageMetadata (pkg_name pkg) (pkg_description pkg) (pkg_version pkg)
            (map model_path models) :: tail)
  end.

(** Lines 283-295: the inner loop over the models of one package.  The
    call passes [schema=...], which names no field of
    [MalloyModelMetadata] (the field is [model_schema]); pydantic drops it
    and [model_schema] keeps its default [{}]. *)
Fixpoint collect_models_of (c : publisher) (pkg : package) (models : list model_ref)
  : result (list MalloyModelMetadata) :=
  match models with
  | [] => Ok []
  | model :: rest =>
      model_details <- get_model c PROJECT_NAME (pkg_name pkg) (model_path model) ;;
      tail <- collect_models_of c pkg rest ;;
      Ok (MkModelMetadata (model_path model) (model_description model)
            (details_sources model_details) (details_queries model_details) []
          :: tail)
  end.

(** Lines 280-295: the second loop; [list_models] is called again. *)
Fixpoint collect_model_metadata (c : publisher) (packages : list package)
  : result (list MalloyModelMetadata) :=
  match packages with
  | [] => Ok []
  | pkg :: rest =>
      models <- list_models c PROJECT_NAME (pkg_name pkg) ;;
      here <- collect_models_of c pkg models ;;
      tail <- collect_model_metadata c rest ;;
      Ok (here ++ tail)%list
  end.

(** Lines 297-329: the resources registered, in registration order. *)
Definition resources_of (project_meta : MalloyProjectMetadata)
  (package_metadata : list MalloyPackageMetadata)
  (model_metadata : list MalloyModelMetadata) : list resource :=
  Resource "malloy://project/home/metadata"
    "Metadata about the Malloy project and its contents"
    (ProjectData project_meta) "1.0"
  :: (map (fun pkg => Resource ("malloy://project/home/package/" ++ pm_name pkg)
                       ("Metadata for the " ++ pm_name pkg ++ " package")
                       (PackageData pkg) (py_or (pm_version pkg) "1.0"))
         package_metadata
  ++ map (fun model => Resource ("malloy://project/home/model/" ++ mm_path model)
                         ("Metadata for the model at " ++ mm_path model)
                         (ModelData model) "1.0")
         model_metadata)%list.

(** The body of the [try] block, lines 262-329. *)
Definition load (c : publisher) : result (list resource) :=
  project <- get_project c PROJECT_NAME ;;
  packages <- list_packages c PROJECT_NAME ;;
  package_metadata <- collect_package_metadata c packages ;;
  model_metadata <- collect_model_metadata c packages ;;
  let project_meta := MkProjectMetadata PROJECT_NAME (project_description project)
                        package_metadata model_metadata in
  Ok (resources_of project_meta package_metadata model_metadata).

(** [register_resources]: the log it writes and the registered resources,
    or the [RuntimeError] it raises (lines 331-334). *)
Definition register_resources (c : publisher) : list log_entry * result (list resource) :=
  match load c with
  | Ok rs => ([], Ok rs)
  | Raise e =>
      let error_msg := "Failed to register Malloy resources: " ++ exn_str e in
      ([LogError error_msg], Raise (RuntimeError error_msg))
  end.

(** The load aborted: one error logged and a [RuntimeError] raised with
    the same message, no resource registered. *)
Definition aborted (out : list log_entry * result (list resource)) : Prop :=
  exists e, let error_msg := "Failed to register Malloy resources: " ++ exn_str e in
            out = ([LogError error_msg], Raise (RuntimeError error_msg)).

(** Concrete catalogs. *)
Definition pkg_a : package := Package "a" None None.
Definition pkg_b : package := Package "b" None (Some "2.0").
Definition model_1 : model_ref := Model "a/one.malloy" None.
Definition model_2 : model_ref := Model "a/two.malloy" None.
Definition details_ok : model_details := ModelDetails ["flights"] [] JNull.

(** One package whose model listing is empty. *)
Definition pub_no_models : publisher :=
  Publisher (fun _ => Ok (Project None)) (fun _ => Ok [pkg_a])
    (fun _ _ => Ok []) (fun _ _ _ => Ok details_ok).

(** Two packages; listing the models of the second one fails. *)
Definition pub_second_listing_fails : publisher :=
  Publisher (fun _ => Ok (Project None)) (fun _ => Ok [pkg_a; pkg_b])
    (fun _ p => if String.eqb p "b" then Raise (PublisherError "list_models failed")
                else Ok [model_1])
    (fun _ _ _ => Ok details_ok).


End Catalog.

(** ** The query tools: tools.py and tools/query_executor.py *)
Module Query.

(** [QueryParams] of the publisher client, as built by both tools. *)
Record QueryParams : Type := MkQueryParams {
  qp_project_name : string;
  qp_package_name : string;
  qp_path : string;
  qp_query : string }.

(** [QueryResult]: the three payload fields, each a JSON text the
    service may omit ([None]). *)
Record QueryResult : Type := MkQueryResult {
  data_styles : option string;
  model_def : option string;
  query_result : option string }.

(** The lifespan context handed to the tools: the client's
    [execute_query] and the project name. *)
Record AppContext : Type := MkAppContext {
  execute_query : QueryParams -> result QueryResult;
  project_name : string }.

(** [model_path.split("/")[0]]: the text before the first ["/"]. *)
Fixpoint split_first (s : string) : string :=
  match s with
  | EmptyString => EmptyString
  | String c rest =>
      if Ascii.eqb c "/"%char then EmptyString else String c (split_first rest)
  end.

(** FastMCP decodes a tool call's JSON arguments into the parameters of
    the tool's signature with a pydantic model; keys naming no parameter
    are dropped (pydantic's default [extra="ignore"]), a missing or
    non-string parameter is a validation error. *)
Definition arg_str (k : string) (args : list (string * json)) : option string :=
  match assoc k args with
  | Some (JStr s) => Some s
  | _ => None
  end.

Section Decoder.

(** [json.loads] on a text: the decoded value, or the message of the
    [JSONDecodeError] it raises. *)
Variable loads : string -> json + string.

(** [json.loads(x)]: [None] is rejected with a [TypeError] before any
    decoding. *)
Definition json_loads (x : option string) : result json :=
  match x with
  | None => Raise (TypeError "the JSON object must be str, bytes or bytearray, not NoneType")
  | Some s =>
      match loads s with
      | inl j => Ok j
      | inr m => Raise (JSONDecodeError m)
      end
  end.

(** [json.loads(x) if x else dflt] *)
Definition loads_or (x : option string) (dflt : json) : result json :=
  if truthy x then json_loads x else Ok dflt.

End Decoder.

Module Tools.

Section Decoder.

Variable loads : string -> json + string.
Local Abbreviation json_loads := (json_loads loads).
Local Abbreviation loads_or := (loads_or loads).

(** tools.py, lines 74-83: decoding the payload.  Only the row data
    is decoded unconditionally; [except json.JSONDecodeError] turns a
    decoding failure into a [MalloyError] naming the model path. *)
Definition parse_results (model_path : string) (r : QueryResult)
  : result (json * json * json) :=
  match
    (ds <- loads_or (data_styles r) (JObj []) ;;
     md <- loads_or (model_def r) (JObj []) ;;
     qr <- json_loads (query_result r) ;;
     Ok (ds, md, qr))
  with
  | Raise (JSONDecodeError m) =>
      Raise (MalloyError ("Failed to parse query results: " ++ m)
               [("model_path", model_path)])
  | other => other
  end.

(** tools.py, lines 94-102: [except MalloyError: raise] and
    [except Exception as e], which wraps any other error. *)
Definition handle_errors (query model_path : string) (body : result json)
  : result json :=
  match body with
  | Raise (MalloyError m c) => Raise (MalloyError m c)
  | Raise e =>
      Raise (MalloyError ("Unexpected error: " ++ exn_str e)
               [("query", query); ("model_path", model_path)])
  | ok => ok
  end.

(** tools.py, [execute_malloy_query(query, model_path, ctx)]: the
    [execute_query] calls issued and the returned dict or raised
    error. *)
Definition execute_malloy_query (app : AppContext) (query model_path : string)
  : list QueryParams * result json :=
  let package_name := split_first model_path in
  let query_params := MkQueryParams (project_name app) package_name model_path query in
  let body :=
    match execute_query app query_params with
    | Raise e =>
        Raise (MalloyError ("Query execution failed: " ++ exn_str e)
                 [("query", query); ("model_path", model_path);
                  ("project", project_name app); ("package", package_name)])
    | Ok r =>
        p <- parse_results model_path r ;;
        let '(ds, md, qr) := p in
        Ok (JObj [("data_styles", ds); ("model_def", md); ("query_result", qr)])
    end in
  ([query_params], handle_errors query model_path body).

(** The tool as invoked through FastMCP with a JSON argument object. *)
Definition call_tool (app : AppContext) (args : list (string * json))
  : list QueryParams * result json :=
  match arg_str "query" args, arg_str "model_path" args with
  | Some query, Some model_path => execute_malloy_query app query model_path
  | _, _ => ([], Raise (ValidationError "validation error for execute_malloy_queryArguments"))
  end.

End Decoder.

End Tools.

Module QueryExecutor.

Section Decoder.

Variable loads : string -> json + string.
Local Abbreviation loads_or := (loads_or loads).

(** tools/query_executor.py, [execute_malloy_query(params, ctx)]: one
    [try] block whose [except Exception] re-raises every failure as a
    [ValueError]. *)
Definition execute_malloy_query (app : AppContext) (query model_path : string)
  : list QueryParams * result json :=
  let package_name := split_first model_path in
  let query_params := MkQueryParams "home" package_name model_path query in
  let body :=
    r <- execute_query app query_params ;;
    ds <- loads_or (data_styles r) (JObj []) ;;
    md <- loads_or (model_def r) (JObj []) ;;
    qr <- loads_or (query_result r) (JArr []) ;;
    Ok (JObj [("data_styles", ds); ("model_def", md); ("query_result", qr)]) in
  let out := catch_all body (fun e =>
    Raise (ValueError ("Failed to execute Malloy query: " ++ exn_str e))) in
  ([query_params], out).

(** Invoked through FastMCP: the single argument [params] is decoded
    into [QueryInput], which also ignores unknown keys. *)
Definition call_tool (app : AppContext) (args : list (string * json))
  : list QueryParams * result json :=
  match assoc "params" args with
  | Some (JObj fields) =>
      match arg_str "query" fields, arg_str "model_path" fields with
      | Some query, Some model_path => execute_malloy_query app query model_path
      | _, _ => ([], Raise (ValidationError "validation error for QueryInput"))
      end
  | _ => ([], Raise (ValidationError "validation error for execute_malloy_queryArguments"))
  end.

End Decoder.

End QueryExecutor.

(** A decoder for the JSON literals [null], [[]] and [{}] that rejects any
    other text the way [json.loads] rejects a text not starting with a
    value; used to run the tools on concrete payloads. *)
Definition loads_literals (s : string) : json + string :=
  if String.eqb s "null" then inl JNull
  else if String.eqb s "[]" then inl (JArr [])
  else if String.eqb s "{}" then inl (JObj [])
  else inr "Expecting value: line 1 column 1 (char 0)".

(** A client whose [execute_query] answers every query with [r]. *)
Definition app_answering (r : QueryResult) : AppContext :=
  MkAppContext (fun _ => Ok r) "home".

End Query.

(** ** Text helpers shared by the modules below *)

(** The newline character. *)
Definition nl : string := String (ascii_of_nat 10) EmptyString.

(** [sep.join(l)] *)
Fixpoint join (sep : string) (l : list string) : string :=
  match l with
  | [] => ""
  | [x] => x
  | x :: rest => x ++ sep ++ join sep rest
  end.

(** [s.split("\n")]: the segments between newlines. *)
Fixpoint split_lines_acc (cur : string) (s : string) : list string :=
  match s with
  | EmptyString => [cur]
  | String c rest =>
      if Ascii.eqb c (ascii_of_nat 10) then cur :: split_lines_acc "" rest
      else split_lines_acc (cur ++ String c EmptyString) rest
  end.

Definition split_lines (s : string) : list string := split_lines_acc "" s.

(** ** resources.py: resource registration on a FastMCP server *)
Module Resources.

(** The publisher's objects, with the [model_dump()] each one yields. *)
Record Project : Type := MkProject { project_dump : list (string * json) }.
Record Package : Type := MkPackage { package_name : string; package_dump : json }.
Record Model : Type := MkModel { model_path : string; model_dump : json }.

(** A resource handler: the decorated zero-argument function. *)
Definition handler := unit -> json.

(** The server's resources: the concrete resources, in the order
    [ResourceManager.add_resource] received them, and the templates.
    FastMCP keys its table by [str(AnyUrl(uri))] and keeps the first
    resource of a key (a later one only logs a warning), so the table is the
    first-match view of this list under that key (see [read_resource]). *)
Record registry : Type := MkRegistry {
  resources : list (string * handler);
  templates : list (string * handler) }.

Definition empty_registry : registry := MkRegistry [] [].

(** The state a registration leaves and its outcome: an exception leaves
    the registrations made before it in place. *)
Definition outcome : Type := (registry * result unit)%type.

Definition and_then (o : outcome) (k : registry -> outcome) : outcome :=
  match o with
  | (reg, Ok _) => k reg
  | (reg, Raise e) => (reg, Raise e)
  end.

(** A [for] loop whose body may raise. *)
Fixpoint for_each {A : Type} (f : A -> registry -> outcome) (l : list A) (reg : registry)
  : outcome :=
  match l with
  | [] => (reg, Ok tt)
  | x :: rest => and_then (f x reg) (for_each f rest)
  end.

(** [c in s] *)
Fixpoint contains (c : ascii) (s : string) : bool :=
  match s with
  | EmptyString => false
  | String c' rest => Ascii.eqb c c' || contains c rest
  end.

(** Python's [\w] on ASCII text: letters, digits and the underscore. *)
Definition is_word (c : ascii) : bool :=
  let n := nat_of_ascii c in
  (Nat.leb 48 n && Nat.leb n 57) || (Nat.leb 65 n && Nat.leb n 90)
  || (Nat.leb 97 n && Nat.leb n 122) || Nat.eqb n 95.

(** [re.findall(r"{(\w+)}", uri)], scanning from the left: [inside] is the
    word read since the last ["{"] not yet matched.  A failed match restarts
    at the next ["{"], as the regex engine does, since the characters it
    skips are word characters. *)
Fixpoint find_params (inside : option string) (s : string) : list string :=
  match s with
  | EmptyString => []
  | String c rest =>
      match inside with
      | None =>
          if Ascii.eqb c "{"%char then find_params (Some "") rest else find_params None rest
      | Some w =>
          if is_word c then find_params (Some (w ++ String c EmptyString)) rest
          else if Ascii.eqb c "}"%char && negb (String.eqb w "") then
            w :: find_params None rest
          else if Ascii.eqb c "{"%char then find_params (Some "") rest
          else find_params None rest
      end
  end.

Definition uri_params (uri : string) : list string := find_params None uri.

(** [repr] of a non-empty set of names; Python prints two or more names in
    hash order, here they are printed in the order found. *)
Definition set_repr (names : list string) : string :=
  "{" ++ join ", " (map (fun n => "'" ++ n ++ "'") names) ++ "}".

(** [@server.resource(uri)] applied to a function of no parameter
    (FastMCP's [resource] decorator).  A URI holding both ["{"] and ["}"] is
    a template: its [{name}] parameters must be the function's parameters,
    none here, or the decorator raises [ValueError]; a template with no
    parameter is added to the templates.  Any other URI becomes a concrete
    resource; [AnyUrl(uri)] accepts every URI built here (scheme [malloy],
    host [project] or [healthcheck]). *)
Definition resource (uri : string) (fn : handler) (reg : registry) : outcome :=
  if contains "{"%char uri && contains "}"%char uri then
    match nodup string_dec (uri_params uri) with
    | [] => (MkRegistry (resources reg) (app (templates reg) [(uri, fn)]), Ok tt)
    | names =>
        (reg, Raise (ValueError ("Mismatch between URI parameters " ++ set_repr names
                                 ++ " and function parameters set()")))
    end
  else (MkRegistry (app (resources reg) [(uri, fn)]) (templates reg), Ok tt).

(** What reading a URI gives. *)
Inductive read_outcome : Type :=
| Read (j : json)
| UnknownResource
| ByTemplate.

(** [ResourceManager.get_resource(uri)]: the first concrete resource whose
    key is the requested URI's; failing that the templates are tried (not
    modelled further), and with no template the read raises
    [ValueError("Unknown resource: ...")].  [url_key] is pydantic's
    normalisation [str(AnyUrl(u))], applied to both sides. *)
Definition read_resource (url_key : string -> string) (reg : registry) (uri : string)
  : read_outcome :=
  match find (fun '(u, _) => String.eqb (url_key u) (url_key uri)) (resources reg) with
  | Some (_, fn) => Read (fn tt)
  | None =>
      match templates reg with
      | [] => UnknownResource
      | _ :: _ => ByTemplate
      end
  end.

(** [{**d, k: v}]: a key [d] has keeps its place and takes the new value,
    a new key goes last. *)
Definition dict_set (k : string) (v : json) (d : list (string * json))
  : list (string * json) :=
  if existsb (fun '(k', _) => String.eqb k' k) d
  then map (fun '(k', v') => if String.eqb k' k then (k', v) else (k', v')) d
  else app d [(k, v)].

Definition get_project_metadata (project : Project) (packages : list Package)
  (models : list Model) : handler :=
  fun _ => JObj (dict_set "models" (JArr (map model_dump models))
                   (dict_set "packages" (JArr (map package_dump packages))
                      (project_dump project))).

Definition get_package (package : Package) : handler := fun _ => package_dump package.

Definition get_model (model : Model) : handler := fun _ => model_dump model.

Definition get_healthcheck : handler :=
  fun _ => JObj [("status", JStr "healthy"); ("version", JStr "0.1.0")].

Definition register_package (package : Package) (reg : registry) : outcome :=
  resource ("malloy://project/home/package/" ++ package_name package) (get_package package) reg.

Definition register_model (model : Model) (reg : registry) : outcome :=
  resource ("malloy://project/home/model/" ++ model_path model) (get_model model) reg.

(** [register_resources(server, project, packages, models)]. *)
Definition register_resources (reg : registry) (project : Project)
  (packages : list Package) (models : list Model) : outcome :=
  and_then (resource "malloy://project/home/metadata"
              (get_project_metadata project packages models) reg) (fun reg =>
  and_then (for_each register_package packages reg) (fun reg =>
  and_then (for_each register_model models reg) (fun reg =>
  resource "malloy://healthcheck" get_healthcheck reg))).


End Resources.

(** ** errors.py *)
Module Errors.

(** [MalloyError(message, context)]: [self.context = context or {}]. *)
Definition make_malloy_error (message : string) (context : option (list (string * string)))
  : exn :=
  MalloyError message (match context with Some c => c | None => [] end).

(** [format_error(error)], on the two attributes it reads: [message] and
    [context] (whose values are rendered with [f"{v}"], here already
    strings).  [if error.context:] is false exactly for the empty dict. *)
Definition format_error (message : string) (context : list (string * string)) : string :=
  let message := "Error: " ++ message in
  match context with
  | [] => message
  | _ :: _ =>
      let context_str := join nl (map (fun '(k, v) => "  " ++ k ++ ": " ++ v) context) in
      message ++ nl ++ "Context:" ++ nl ++ context_str
  end.

End Errors.

(** ** server.py: the [execute_malloy_query] tool and the [create_malloy_query] prompt *)
Module Server.

Import Connection.

(** [repr] of a Python string whose characters are ASCII: single quotes
    unless the text holds a single quote and no double quote; the quote in
    use and backslash are escaped, tab, newline and carriage return as
    [\t], [\n], [\r], other control characters as [\xNN]. *)
Definition hex_digit (n : nat) : ascii :=
  ascii_of_nat (if Nat.ltb n 10 then 48 + n else 87 + n).

Definition repr_char (quote : ascii) (c : ascii) : string :=
  let n := nat_of_ascii c in
  if Ascii.eqb c quote || Ascii.eqb c "\"%char then String "\"%char (String c EmptyString)
  else if Nat.eqb n 9 then "\t"
  else if Nat.eqb n 10 then "\n"
  else if Nat.eqb n 13 then "\r"
  else if Nat.ltb n 32 || Nat.eqb n 127 then
    String "\"%char (String "x"%char
      (String (hex_digit (n / 16)) (String (hex_digit (n mod 16)) EmptyString)))
  else String c EmptyString.

Fixpoint repr_body (quote : ascii) (s : string) : string :=
  match s with
  | EmptyString => EmptyString
  | String c rest => repr_char quote c ++ repr_body quote rest
  end.

Fixpoint has_char (c : ascii) (s : string) : bool :=
  match s with
  | EmptyString => false
  | String c' rest => Ascii.eqb c c' || has_char c rest
  end.

Definition py_repr (s : string) : string :=
  let quote := if has_char "'"%char s && negb (has_char (ascii_of_nat 34) s)
               then ascii_of_nat 34 else "'"%char in
  String quote (repr_body quote s ++ String quote EmptyString).

(** [str(d)] of a dict with string keys and values. *)
Definition dict_repr (d : list (string * string)) : string :=
  "{" ++ join ", " (map (fun '(k, v) => py_repr k ++ ": " ++ py_repr v) d) ++ "}".

(** The characters [repr] copies unchanged between single quotes:
    printable ASCII other than the single quote and the backslash. *)
Definition plain_char (c : ascii) : bool :=
  Nat.leb 32 (nat_of_ascii c) && Nat.ltb (nat_of_ascii c) 127
  && negb (Ascii.eqb c "'"%char) && negb (Ascii.eqb c "\"%char).

Record MalloyQueryInput : Type := MkMalloyQueryInput { query : string; model_path : string }.

(** The result rows: a list of dicts. *)
Definition rows := list (list (string * json)).

Record MalloyQueryOutput : Type := MkMalloyQueryOutput { results : rows }.

(** The awaited calls on the request context.  [ctx.info(...)] is called
    without [await] in this function, so its coroutine never runs and it
    leaves no event. *)
Inductive ctx_event : Type :=
| ReportProgress (progress total : nat)
| CtxError (msg : string).

(** [execute_malloy_query(params, ctx)], lines 76-122, given the client's
    [run_query(project=..., model_path=..., query=...)]. *)
Definition execute_malloy_query
  (run_query : string -> string -> string -> result rows) (params : MalloyQueryInput)
  : list ctx_event * result MalloyQueryOutput :=
  match run_query PROJECT_NAME (model_path params) (query params) with
  | Ok result =>
      ([ReportProgress 0 2; ReportProgress 1 2; ReportProgress 2 2],
       Ok (MkMalloyQueryOutput result))
  | Raise e =>
      let error_context := [("query", query params); ("model_path", model_path params);
                            ("project", PROJECT_NAME)] in
      let error_msg := "Failed to execute Malloy query: " ++ exn_str e ++ nl
                       ++ "Context: " ++ dict_repr error_context in
      ([ReportProgress 0 2; CtxError error_msg], Raise (ValueError error_msg))
  end.

(** The outcomes of [create_malloy_query]: the returned dict, or the
    [NameError] raised by its handler, which names [ctx], a name the
    function neither takes nor finds at module level. *)
Inductive prompt_outcome : Type :=
| Returned (d : list (string * string))
| RaisedNameError (msg : string).

(** The f-string of lines 233-240, with [{{] and [}}] rendered as braces. *)
Definition query_text (source : string) : string :=
  nl ++ "        query: " ++ source ++ " ->" ++ nl
  ++ "        {" ++ nl
  ++ "            group_by: dimension1" ++ nl
  ++ "            aggregate:" ++ nl
  ++ "                measure1" ++ nl
  ++ "        }" ++ nl
  ++ "        ".

Definition explanation : string :=
  "This query groups the data by dimension1 and calculates measure1 for each group.".

(** [create_malloy_query(model_path, requirements, available_sources)],
    lines 212-253.  [context['sources'][0]] raises [IndexError] on an empty
    list; the [except] block then evaluates [ctx.error], and [ctx] is
    unbound. *)
Definition create_malloy_query (model_path requirements : string)
  (available_sources : list string) : prompt_outcome :=
  match available_sources with
  | source :: _ => Returned [("query", query_text source); ("explanation", explanation)]
  | [] => RaisedNameError "name 'ctx' is not defined"
  end.

End Server.

(** ** What a payload field of a query result decodes to *)
Module Payload.

(** [json.loads(x) if x else dflt] yields [j]: an omitted or empty field
    gives the default, a present one decodes to [j]. *)
Definition decodes_to (loads : string -> json + string) (x : option string) (dflt j : json)
  : Prop :=
  match x with
  | None => j = dflt
  | Some s => (s = "" /\ j = dflt) \/ (s <> "" /\ loads s = inl j)
  end.

End Payload.

(** ** A catalog on which every call succeeds *)
Module CatalogSamples.

Import Catalog.

(** Package [a] lists two models, package [b] none. *)
Definition pub_ok : publisher :=
  Publisher (fun _ => Ok (Project (Some "demo"))) (fun _ => Ok [pkg_a; pkg_b])
    (fun _ p => if String.eqb p "a" then Ok [model_1; model_2] else Ok [])
    (fun _ _ _ => Ok details_ok).

(** The resources [register_resources] registers for [pub_ok]. *)
Definition pub_ok_resources : list resource :=
  match snd (register_resources pub_ok) with
  | Ok rs => rs
  | Raise _ => []
  end.

(** The models a publisher lists for each package, as a list of listings. *)
Definition listed (c : publisher) (packages : list package) (listings : list (list model_ref))
  : Prop :=
  Forall2 (fun p ms => list_models c Connection.PROJECT_NAME (pkg_name p) = Ok ms) packages listings.

End CatalogSamples.

(** * Properties *)

(** ** The module-level client *)

(** Claim C1, as stated: with retry count 2 and a publisher whose
    verification call always fails, connecting makes 2 attempts and raises a
    connection error.  The client of [server.py] is built by one
    construction and never raises, so this fails. *)
Lemma client_at_import_no_retry_no_error :
  Connection.attempts (fst (Connection.client_at_import (fun _ => None))) <> 2%nat /\
  (forall e, snd (Connection.client_at_import (fun _ => None)) <> Raise e).
Proof.
  split.
  - cbv. discriminate.
  - intros e. cbv. discriminate.
Qed.

(** Claim C1, amended: whatever the environment and the publisher, the
    client is constructed exactly once, no verification call is issued and
    no error is raised. *)
Theorem client_at_import_single_attempt : forall env,
  Connection.attempts (fst (Connection.client_at_import env)) = 1%nat /\
  ~ In Connection.Verify (fst (Connection.client_at_import env)) /\
  snd (Connection.client_at_import env) =
    Ok (Connection.MalloyPublisherClient "http://localhost:4000").
Proof.
  intros env. repeat split.
  cbn. intros [H | []]. discriminate H.
Qed.

(** Claim C7, as stated: there is a delay before retry 0 that equals
    [baseDelay * 2^0 * jitter] with [baseDelay = 0.5] and [jitter] in
    [[0.8, 1.2]].  No delay is ever waited, so this fails. *)
Lemma client_at_import_no_backoff_delay :
  ~ (exists d j, nth_error (Connection.sleeps (fst (Connection.client_at_import (fun _ => None)))) 0
                   = Some d /\
                 (4 # 5 <= j <= 6 # 5)%Q /\ (d == (1 # 2) * 1 * j)%Q).
Proof.
  intros (d & j & H & _). cbv in H. discriminate H.
Qed.

(** Claim C7, amended: connecting waits no delay at all. *)
Theorem client_at_import_waits_nothing : forall env,
  Connection.sleeps (fst (Connection.client_at_import env)) = [].
Proof. reflexivity. Qed.

(** Claim C8, as stated: when the environment sets the publisher URL, the
    client uses it.  With [MALLOY_PUBLISHER_ROOT_URL] set, the client still
    uses the literal local address. *)
Lemma client_url_ignores_environment :
  Connection.env_with_url "MALLOY_PUBLISHER_ROOT_URL" = Some "http://test-publisher:5000" /\
  snd (Connection.client_at_import Connection.env_with_url)
    = Ok (Connection.MalloyPublisherClient "http://localhost:4000").
Proof. split; reflexivity. Qed.

(** Claim C8, amended: the client's base URL is the literal
    [http://localhost:4000] in every environment. *)
Theorem client_url_is_literal : forall env u,
  snd (Connection.client_at_import env) = Ok (Connection.MalloyPublisherClient u) ->
  u = "http://localhost:4000".
Proof.
  intros env u H. cbn in H. injection H as <-. reflexivity.
Qed.

Lemma client_url_is_literal_witness :
  "http://localhost:4000" = "http://localhost:4000".
Proof.
  apply (client_url_is_literal Connection.env_with_url). reflexivity.
Defined.

(** ** The startup catalog loader *)
Section CatalogFacts.

Import Connection Catalog.

(** A failed [load] is logged and re-raised as a [RuntimeError]. *)
Lemma load_raise_aborted : forall c e, load c = Raise e -> aborted (register_resources c).
Proof.
  intros c e H. exists e. unfold register_resources. rewrite H. reflexivity.
Qed.

Lemma collect_package_metadata_empty : forall c packages,
  (forall p, In p packages -> list_models c PROJECT_NAME (pkg_name p) = Ok []) ->
  collect_package_metadata c packages
    = Ok (map (fun p => MkPackageMetadata (pkg_name p) (pkg_description p) (pkg_version p) [])
              packages).
Proof.
  intros c packages. induction packages as [| p rest IH]; intros Hm; [reflexivity |].
  cbn. rewrite (Hm p (or_introl eq_refl)). cbn.
  rewrite IH by (intros q Hq; apply Hm; right; exact Hq). reflexivity.
Qed.

Lemma collect_model_metadata_empty : forall c packages,
  (forall p, In p packages -> list_models c PROJECT_NAME (pkg_name p) = Ok []) ->
  collect_model_metadata c packages = Ok [].
Proof.
  intros c packages. induction packages as [| p rest IH]; intros Hm; [reflexivity |].
  cbn. rewrite (Hm p (or_introl eq_refl)). cbn.
  rewrite IH by (intros q Hq; apply Hm; right; exact Hq). reflexivity.
Qed.

Lemma collect_package_metadata_fails : forall c packages p e,
  In p packages -> list_models c PROJECT_NAME (pkg_name p) = Raise e ->
  exists e', collect_package_metadata c packages = Raise e'.
Proof.
  intros c packages p e. induction packages as [| q rest IH]; intros Hin Hm; [destruct Hin |].
  cbn. destruct (list_models c PROJECT_NAME (pkg_name q)) as [ms | e0] eqn:Hq; cbn;
    [| eauto].
  destruct Hin as [<- | Hin]; [congruence |].
  destruct (IH Hin Hm) as [e' ->]. cbn. eauto.
Qed.



Lemma collect_package_metadata_raise : forall c packages e0,
  collect_package_metadata c packages = Raise e0 ->
  exists pk, list_models c PROJECT_NAME pk = Raise e0.
Proof.
  intros c packages e0. induction packages as [| q rest IH]; intros H; [discriminate |].
  cbn in H. destruct (list_models c PROJECT_NAME (pkg_name q)) as [ms | e1] eqn:Hq; cbn in H.
  - destruct (collect_package_metadata c rest); cbn in H; [discriminate |].
    injection H as <-. apply IH. reflexivity.
  - injection H as <-. eauto.
Qed.

Lemma collect_models_of_raise : forall c pkg models e0,
  collect_models_of c pkg models = Raise e0 ->
  exists pk path, get_model c PROJECT_NAME pk path = Raise e0.
Proof.
  intros c pkg models e0. induction models as [| m rest IH]; intros H; [discriminate |].
  cbn in H.
  destruct (get_model c PROJECT_NAME (pkg_name pkg) (model_path m)) as [d | e1] eqn:Hd; cbn in H.
  - destruct (collect_models_of c pkg rest); cbn in H; [discriminate |].
    injection H as <-. apply IH. reflexivity.
  - injection H as <-. eauto.
Qed.

Lemma collect_model_metadata_raise : forall c packages e0,
  collect_model_metadata c packages = Raise e0 ->
  (exists pk, list_models c PROJECT_NAME pk = Raise e0) \/
  (exists pk path, get_model c PROJECT_NAME pk path = Raise e0).
Proof.
  intros c packages e0. induction packages as [| q rest IH]; intros H; [discriminate |].
  cbn in H. destruct (list_models c PROJECT_NAME (pkg_name q)) as [ms | e1] eqn:Hq; cbn in H.
  - destruct (collect_models_of c q ms) as [here | e2] eqn:Hh; cbn in H.
    + destruct (collect_model_metadata c rest); cbn in H; [discriminate |].
      injection H as <-. apply IH. reflexivity.
    + injection H as <-. right. exact (collect_models_of_raise c q ms e2 Hh).
  - injection H as <-. left. eauto.
Qed.

Lemma collect_package_metadata_first_failure : forall c pre p post e,
  Forall (fun q => exists ms, list_models c PROJECT_NAME (pkg_name q) = Ok ms) pre ->
  list_models c PROJECT_NAME (pkg_name p) = Raise e ->
  collect_package_metadata c (pre ++ p :: post)%list = Raise e.
Proof.
  intros c pre p post e Hpre Hp. induction Hpre as [| q pre' [ms Hq] _ IH].
  - cbn. rewrite Hp. reflexivity.
  - cbn. rewrite Hq. cbn. rewrite IH. reflexivity.
Qed.


End CatalogFacts.

(** Claim C2, as stated: a load in which no model is resolved raises a
    catalog load error.  On a catalog with one package and no models,
    [register_resources] raises nothing and registers its resources. *)
Lemma register_resources_no_models_succeeds :
  exists rs, Catalog.register_resources Catalog.pub_no_models = ([], Ok rs).
Proof. eexists. reflexivity. Qed.

(** Claim C2, amended: [register_resources] makes no empty-catalog check.
    When every call succeeds and every package lists zero models, it logs
    nothing, raises nothing, and registers the project metadata (first,
    with an empty model list) and then one resource per package, nothing
    else.  It raises only when a client call raises: the [RuntimeError]
    it raises, and logs, carries that call's error. *)
Theorem register_resources_empty_catalog :
  (forall c prj packages,
     Catalog.get_project c Connection.PROJECT_NAME = Ok prj ->
     Catalog.list_packages c Connection.PROJECT_NAME = Ok packages ->
     (forall p, In p packages ->
        Catalog.list_models c Connection.PROJECT_NAME (Catalog.pkg_name p) = Ok []) ->
     Catalog.register_resources c
       = ([], Ok (Catalog.Resource "malloy://project/home/metadata"
                    "Metadata about the Malloy project and its contents"
                    (Catalog.ProjectData
                       (Catalog.MkProjectMetadata Connection.PROJECT_NAME
                          (Catalog.project_description prj)
                          (map (fun p => Catalog.MkPackageMetadata (Catalog.pkg_name p)
                                           (Catalog.pkg_description p)
                                           (Catalog.pkg_version p) [])
                               packages)
                          [])) "1.0"
                  :: map (fun p =>
                            Catalog.Resource
                              ("malloy://project/home/package/" ++ Catalog.pkg_name p)
                              ("Metadata for the " ++ Catalog.pkg_name p ++ " package")
                              (Catalog.PackageData
                                 (Catalog.MkPackageMetadata (Catalog.pkg_name p)
                                    (Catalog.pkg_description p) (Catalog.pkg_version p) []))
                              (py_or (Catalog.pkg_version p) "1.0"))
                         packages))) /\
  (forall c log e,
     Catalog.register_resources c = (log, Raise e) ->
     exists e0,
       log = [Catalog.LogError ("Failed to register Malloy resources: " ++ exn_str e0)] /\
       e = RuntimeError ("Failed to register Malloy resources: " ++ exn_str e0) /\
       (Catalog.get_project c Connection.PROJECT_NAME = Raise e0 \/
        Catalog.list_packages c Connection.PROJECT_NAME = Raise e0 \/
        (exists pk, Catalog.list_models c Connection.PROJECT_NAME pk = Raise e0) \/
        (exists pk path, Catalog.get_model c Connection.PROJECT_NAME pk path = Raise e0))).
Proof.
  split.
  - intros c prj packages Hp Hl Hm.
    unfold Catalog.register_resources, Catalog.load.
    rewrite Hp. cbn [bind]. rewrite Hl. cbn [bind].
    rewrite (collect_package_metadata_empty c packages Hm). cbn [bind].
    rewrite (collect_model_metadata_empty c packages Hm). cbn [bind].
    unfold Catalog.resources_of. rewrite map_map. cbn [map]. rewrite app_nil_r. reflexivity.
  - intros c log e H. unfold Catalog.register_resources in H.
    destruct (Catalog.load c) as [rs | e0] eqn:Hload; [discriminate |].
    injection H as <- <-. exists e0. split; [reflexivity |]. split; [reflexivity |].
    unfold Catalog.load in Hload.
    destruct (Catalog.get_project c Connection.PROJECT_NAME) as [prj | e1] eqn:Hp;
      cbn [bind] in Hload; [| injection Hload as <-; left; reflexivity].
    destruct (Catalog.list_packages c Connection.PROJECT_NAME) as [packages | e1] eqn:Hl;
      cbn [bind] in Hload; [| injection Hload as <-; right; left; reflexivity].
    destruct (Catalog.collect_package_metadata c packages) as [pms | e1] eqn:Hpm;
      cbn [bind] in Hload.
    + destruct (Catalog.collect_model_metadata c packages) as [mms | e2] eqn:Hmm;
        cbn [bind] in Hload; [discriminate |].
      injection Hload as <-. right. right.
      exact (collect_model_metadata_raise c packages e2 Hmm).
    + injection Hload as <-. right. right. left.
      exact (collect_package_metadata_raise c packages e1 Hpm).
Qed.

Lemma register_resources_empty_catalog_witness :
  Catalog.register_resources Catalog.pub_no_models
    = ([], Ok [Catalog.Resource "malloy://project/home/metadata"
                 "Metadata about the Malloy project and its contents"
                 (Catalog.ProjectData
                    (Catalog.MkProjectMetadata "home" None
                       [Catalog.MkPackageMetadata "a" None None []] [])) "1.0";
               Catalog.Resource "malloy://project/home/package/a"
                 "Metadata for the a package"
                 (Catalog.PackageData (Catalog.MkPackageMetadata "a" None None [])) "1.0"]).
Proof.
  apply (proj1 register_resources_empty_catalog Catalog.pub_no_models (Catalog.Project None)
           [Catalog.pkg_a]); [reflexivity | reflexivity |].
  intros p _. reflexivity.
Defined.

(** Claim C3, as stated: with two packages where listing the second one's
    models fails, the load returns the first package's models and raises
    nothing.  It raises a [RuntimeError] instead. *)
Lemma register_resources_second_listing_fails :
  Catalog.register_resources Catalog.pub_second_listing_fails
    = ([Catalog.LogError "Failed to register Malloy resources: list_models failed"],
       Raise (RuntimeError "Failed to register Malloy resources: list_models failed")).
Proof. reflexivity. Qed.

(** Claim C3, amended: a failure of any package's model listing aborts the
    whole load: one error is logged, a [RuntimeError] with the same
    message is raised, and no resource is registered.  When the project
    lookup and the listings of the packages before it succeed, the message
    is ["Failed to register Malloy resources: "] followed by the failing
    listing's own error. *)
Theorem register_resources_aborts_on_listing_failure : forall c packages p e,
  Catalog.list_packages c Connection.PROJECT_NAME = Ok packages ->
  In p packages ->
  Catalog.list_models c Connection.PROJECT_NAME (Catalog.pkg_name p) = Raise e ->
  Catalog.aborted (Catalog.register_resources c) /\
  (forall log rs, Catalog.register_resources c <> (log, Ok rs)) /\
  (forall prj pre post,
     Catalog.get_project c Connection.PROJECT_NAME = Ok prj ->
     packages = (pre ++ p :: post)%list ->
     Forall (fun q => exists ms,
               Catalog.list_models c Connection.PROJECT_NAME (Catalog.pkg_name q) = Ok ms) pre ->
     Catalog.register_resources c
       = ([Catalog.LogError ("Failed to register Malloy resources: " ++ exn_str e)],
          Raise (RuntimeError ("Failed to register Malloy resources: " ++ exn_str e)))).
Proof.
  intros c packages p e Hl Hin Hm.
  assert (Hab : Catalog.aborted (Catalog.register_resources c)).
  { destruct (Catalog.load c) as [rs | e'] eqn:Hload.
    - exfalso. unfold Catalog.load in Hload.
      destruct (Catalog.get_project c Connection.PROJECT_NAME); cbn in Hload; [| discriminate].
      rewrite Hl in Hload. cbn in Hload.
      destruct (collect_package_metadata_fails c packages p e Hin Hm) as [e'' He].
      rewrite He in Hload. discriminate.
    - exact (load_raise_aborted c e' Hload). }
  split; [exact Hab | split].
  - intros log rs H. destruct Hab as [e' He']. rewrite H in He'. discriminate.
  - intros prj pre post Hp -> Hpre.
    unfold Catalog.register_resources, Catalog.load.
    rewrite Hp. cbn [bind]. rewrite Hl. cbn [bind].
    rewrite (collect_package_metadata_first_failure c pre p post e Hpre Hm). reflexivity.
Qed.

Lemma register_resources_aborts_on_listing_failure_witness :
  Catalog.register_resources Catalog.pub_second_listing_fails
    = ([Catalog.LogError ("Failed to register Malloy resources: "
                          ++ exn_str (PublisherError "list_models failed"))],
       Raise (RuntimeError ("Failed to register Malloy resources: "
                            ++ exn_str (PublisherError "list_models failed")))).
Proof.
  apply (proj2 (proj2 (register_resources_aborts_on_listing_failure
                         Catalog.pub_second_listing_fails [Catalog.pkg_a; Catalog.pkg_b]
                         Catalog.pkg_b (PublisherError "list_models failed")
                         eq_refl (or_intror (or_introl eq_refl)) eq_refl))
           (Catalog.Project None) [Catalog.pkg_a] []); [reflexivity | reflexivity |].
  constructor; [| constructor]. eexists. reflexivity.
Defined.




(** ** The query tools *)
Section QueryFacts.

Import Query.

Variable loads : string -> json + string.

Lemma loads_or_cases : forall x d,
  (exists j, loads_or loads x d = Ok j) \/
  (exists m, loads_or loads x d = Raise (JSONDecodeError m)).
Proof.
  intros [s |] d; unfold loads_or; cbn; [| eauto].
  destruct (negb (String.eqb s "")); [| eauto].
  destruct (loads s); eauto.
Qed.

Lemma loads_or_fails : forall s m d,
  s <> "" -> loads s = inr m -> loads_or loads (Some s) d = Raise (JSONDecodeError m).
Proof.
  intros s m d Hs Hl. unfold loads_or. cbn.
  apply String.eqb_neq in Hs. rewrite Hs. cbn. rewrite Hl. reflexivity.
Qed.

(** A present, non-empty field that does not decode makes the decoding
    step raise the parse error (of the first failing field). *)
Lemma parse_results_fails : forall model_path r s m,
  (data_styles r = Some s \/ model_def r = Some s \/ query_result r = Some s) ->
  s <> "" -> loads s = inr m ->
  exists m', Tools.parse_results loads model_path r
    = Raise (MalloyError ("Failed to parse query results: " ++ m') [("model_path", model_path)]).
Proof.
  intros model_path r s m Hf Hs Hl. unfold Tools.parse_results.
  destruct (loads_or_cases (data_styles r) (JObj [])) as [[j1 H1] | [m1 H1]];
    rewrite H1; cbn; [| eauto].
  destruct (loads_or_cases (model_def r) (JObj [])) as [[j2 H2] | [m2 H2]];
    rewrite H2; cbn; [| eauto].
  destruct Hf as [Hd | [Hm | Hq]].
  - rewrite Hd, (loads_or_fails s m _ Hs Hl) in H1. discriminate.
  - rewrite Hm, (loads_or_fails s m _ Hs Hl) in H2. discriminate.
  - rewrite Hq. cbn. rewrite Hl. cbn. eauto.
Qed.

Lemma handle_errors_not_validation : forall query model_path body m,
  Tools.handle_errors query model_path body <> Raise (ValidationError m).
Proof. intros query model_path [a | []] m; cbn; discriminate. Qed.

End QueryFacts.

(** Claim C5, as stated: a call supplying both the raw query text and a
    named query raises a validation error and makes no [execute_query]
    call.  tools.py has no named-query parameter: the extra arguments are
    dropped and the raw query is executed. *)
Lemma tools_named_query_arguments_ignored :
  let args := [("query", JStr "run: flights -> by_carrier");
               ("model_path", JStr "faa/flights.malloy");
               ("source_name", JStr "flights");
               ("query_name", JStr "by_carrier")] in
  let app := Query.app_answering (Query.MkQueryResult (Some "{}") (Some "{}") (Some "[]")) in
  fst (Query.Tools.call_tool Query.loads_literals app args)
    = [Query.MkQueryParams "home" "faa" "faa/flights.malloy" "run: flights -> by_carrier"] /\
  snd (Query.Tools.call_tool Query.loads_literals app args)
    = Ok (JObj [("data_styles", JObj []); ("model_def", JObj []); ("query_result", JArr [])]).
Proof. split; reflexivity. Qed.

(** Claim C5, amended: the tool reads only the raw query text and the model
    path (there is no named-query mode and no validation of query
    selection): every call whose [query] and [model_path] arguments are
    strings, whatever other arguments it carries, issues exactly one
    [execute_query] call with that query text and raises no validation
    error. *)
Theorem tools_single_execute_call : forall loads app args query model_path,
  Query.arg_str "query" args = Some query ->
  Query.arg_str "model_path" args = Some model_path ->
  fst (Query.Tools.call_tool loads app args)
    = [Query.MkQueryParams (Query.project_name app) (Query.split_first model_path)
         model_path query] /\
  (forall m, snd (Query.Tools.call_tool loads app args) <> Raise (ValidationError m)).
Proof.
  intros loads app args query model_path Hq Hm.
  unfold Query.Tools.call_tool. rewrite Hq, Hm. split; [reflexivity |].
  intros m. apply handle_errors_not_validation.
Qed.

Lemma tools_single_execute_call_witness :
  let args := [("query", JStr "run: flights -> by_carrier");
               ("model_path", JStr "faa/flights.malloy");
               ("source_name", JStr "flights");
               ("query_name", JStr "by_carrier")] in
  let app := Query.app_answering (Query.MkQueryResult None None (Some "[]")) in
  fst (Query.Tools.call_tool Query.loads_literals app args)
    = [Query.MkQueryParams "home" "faa" "faa/flights.malloy" "run: flights -> by_carrier"] /\
  (forall m, snd (Query.Tools.call_tool Query.loads_literals app args) <> Raise (ValidationError m)).
Proof.
  intros args app.
  apply (tools_single_execute_call Query.loads_literals app args
           "run: flights -> by_carrier" "faa/flights.malloy"); reflexivity.
Defined.

(** Claim C6: when the remote call succeeds but a present payload field
    (for instance the row data) does not decode, tools.py raises the parse
    error [MalloyError("Failed to parse query results: ...", {model_path})]
    and returns no data; this error differs from the one raised, for the
    same query, by a client whose call fails
    ([MalloyError("Query execution failed: ...", ...)]).  Both are of class
    [MalloyError]; they are told apart by message and context. *)
Theorem tools_undecodable_payload_parse_error :
  forall loads app app' query model_path r s m e,
  Query.execute_query app
    (Query.MkQueryParams (Query.project_name app) (Query.split_first model_path) model_path query)
    = Ok r ->
  (Query.data_styles r = Some s \/ Query.model_def r = Some s \/ Query.query_result r = Some s) ->
  s <> "" -> loads s = inr m ->
  Query.execute_query app'
    (Query.MkQueryParams (Query.project_name app') (Query.split_first model_path) model_path query)
    = Raise e ->
  exists m',
    snd (Query.Tools.execute_malloy_query loads app query model_path)
      = Raise (MalloyError ("Failed to parse query results: " ++ m') [("model_path", model_path)]) /\
    snd (Query.Tools.execute_malloy_query loads app' query model_path)
      <> snd (Query.Tools.execute_malloy_query loads app query model_path).
Proof.
  intros loads app app' query model_path r s m e Hok Hf Hs Hl Hfail.
  destruct (parse_results_fails loads model_path r s m Hf Hs Hl) as [m' Hp].
  exists m'.
  assert (Happ : snd (Query.Tools.execute_malloy_query loads app query model_path)
    = Raise (MalloyError ("Failed to parse query results: " ++ m') [("model_path", model_path)])).
  { unfold Query.Tools.execute_malloy_query. cbv zeta. rewrite Hok. cbn [bind].
    rewrite Hp. reflexivity. }
  split; [exact Happ |].
  rewrite Happ. unfold Query.Tools.execute_malloy_query. cbv zeta. rewrite Hfail.
  cbn. discriminate.
Qed.

Lemma tools_undecodable_payload_parse_error_witness :
  exists m',
    snd (Query.Tools.execute_malloy_query Query.loads_literals
           (Query.app_answering (Query.MkQueryResult (Some "{}") None (Some "[{oops")))
           "run: flights -> by_carrier" "faa/flights.malloy")
      = Raise (MalloyError ("Failed to parse query results: " ++ m')
                 [("model_path", "faa/flights.malloy")]) /\
    snd (Query.Tools.execute_malloy_query Query.loads_literals
           (Query.MkAppContext (fun _ => Raise (PublisherError "connection refused")) "home")
           "run: flights -> by_carrier" "faa/flights.malloy")
      <> snd (Query.Tools.execute_malloy_query Query.loads_literals
           (Query.app_answering (Query.MkQueryResult (Some "{}") None (Some "[{oops")))
           "run: flights -> by_carrier" "faa/flights.malloy").
Proof.
  apply (tools_undecodable_payload_parse_error Query.loads_literals
           (Query.app_answering (Query.MkQueryResult (Some "{}") None (Some "[{oops")))
           (Query.MkAppContext (fun _ => Raise (PublisherError "connection refused")) "home")
           "run: flights -> by_carrier" "faa/flights.malloy"
           (Query.MkQueryResult (Some "{}") None (Some "[{oops")) "[{oops"
           "Expecting value: line 1 column 1 (char 0)" (PublisherError "connection refused")).
  - reflexivity.
  - right. right. reflexivity.
  - discriminate.
  - reflexivity.
  - reflexivity.
Defined.

(** Claim C9 (defect in tools.py): when the service omits the payload
    fields, tools.py decodes the row data without the emptiness guard the
    two other fields have, so [json.loads(None)] raises and the tool fails
    with an "Unexpected error"; the sibling tool in query_executor.py
    returns empty structured data for the same result. *)
Theorem tools_omitted_row_data_raises : forall loads,
  let app := Query.app_answering (Query.MkQueryResult None None None) in
  snd (Query.Tools.execute_malloy_query loads app "run: flights -> by_carrier" "faa/flights.malloy")
    = Raise (MalloyError
               "Unexpected error: the JSON object must be str, bytes or bytearray, not NoneType"
               [("query", "run: flights -> by_carrier"); ("model_path", "faa/flights.malloy")]) /\
  snd (Query.QueryExecutor.execute_malloy_query loads app "run: flights -> by_carrier"
         "faa/flights.malloy")
    = Ok (JObj [("data_styles", JObj []); ("model_def", JObj []); ("query_result", JArr [])]).
Proof. intros loads app. split; reflexivity. Qed.

(** * Further properties of the code *)

(** ** The package name of a model path *)

Lemma split_first_prefix : forall a b,
  ~ In "/"%char (list_ascii_of_string a) ->
  Query.split_first (a ++ "/" ++ b) = a /\ Query.split_first a = a.
Proof.
  induction a as [| c rest IH]; intros b Hno; [split; reflexivity |].
  cbn in Hno. cbn.
  assert (Hc : Ascii.eqb c "/"%char = false)
    by (apply Ascii.eqb_neq; intros ->; apply Hno; left; reflexivity).
  rewrite Hc. destruct (IH b) as [H1 H2]; [intros H; apply Hno; right; exact H |].
  cbn in H1. rewrite H1, H2. split; reflexivity.
Qed.

(** Both query tools send, in their one [execute_query] call, the text
    before the first ["/"] of the model path as the package name
    ([model_path.split("/")[0]]), and the whole path when it holds no
    ["/"]; tools.py names the project of the lifespan context,
    tools/query_executor.py the fixed project ["home"]. *)
Theorem query_params_package_name : forall loads app query a b,
  ~ In "/"%char (list_ascii_of_string a) ->
  fst (Query.Tools.execute_malloy_query loads app query (a ++ "/" ++ b))
    = [Query.MkQueryParams (Query.project_name app) a (a ++ "/" ++ b) query] /\
  fst (Query.Tools.execute_malloy_query loads app query a)
    = [Query.MkQueryParams (Query.project_name app) a a query] /\
  fst (Query.QueryExecutor.execute_malloy_query loads app query (a ++ "/" ++ b))
    = [Query.MkQueryParams "home" a (a ++ "/" ++ b) query] /\
  fst (Query.QueryExecutor.execute_malloy_query loads app query a)
    = [Query.MkQueryParams "home" a a query].
Proof.
  intros loads app query a b Hno.
  destruct (split_first_prefix a b Hno) as [H1 H2].
  unfold Query.Tools.execute_malloy_query, Query.QueryExecutor.execute_malloy_query.
  cbn [fst]. rewrite H1, H2. repeat split.
Qed.

Lemma query_params_package_name_witness :
  fst (Query.Tools.execute_malloy_query Query.loads_literals
         (Query.app_answering (Query.MkQueryResult None None None))
         "run: flights -> by_carrier" ("faa" ++ "/" ++ "flights.malloy"))
    = [Query.MkQueryParams "home" "faa" ("faa" ++ "/" ++ "flights.malloy")
         "run: flights -> by_carrier"] /\
  fst (Query.Tools.execute_malloy_query Query.loads_literals
         (Query.app_answering (Query.MkQueryResult None None None))
         "run: flights -> by_carrier" "faa")
    = [Query.MkQueryParams "home" "faa" "faa" "run: flights -> by_carrier"] /\
  fst (Query.QueryExecutor.execute_malloy_query Query.loads_literals
         (Query.app_answering (Query.MkQueryResult None None None))
         "run: flights -> by_carrier" ("faa" ++ "/" ++ "flights.malloy"))
    = [Query.MkQueryParams "home" "faa" ("faa" ++ "/" ++ "flights.malloy")
         "run: flights -> by_carrier"] /\
  fst (Query.QueryExecutor.execute_malloy_query Query.loads_literals
         (Query.app_answering (Query.MkQueryResult None None None))
         "run: flights -> by_carrier" "faa")
    = [Query.MkQueryParams "home" "faa" "faa" "run: flights -> by_carrier"].
Proof.
  apply (query_params_package_name Query.loads_literals
           (Query.app_answering (Query.MkQueryResult None None None))
           "run: flights -> by_carrier" "faa" "flights.malloy").
  cbv. intros [H | [H | [H | []]]]; discriminate H.
Defined.

(** ** The query tools, further *)
Section QueryMore.

Import Query.

Variable loads : string -> json + string.

Lemma decodes_to_loads_or : forall x d j,
  Payload.decodes_to loads x d j -> loads_or loads x d = Ok j.
Proof.
  intros [s |] d j H; cbn in H.
  - destruct H as [[-> ->] | [Hs Hl]]; [reflexivity |].
    unfold loads_or. cbn. apply String.eqb_neq in Hs. rewrite Hs. cbn. rewrite Hl. reflexivity.
  - subst. reflexivity.
Qed.

Lemma handle_errors_malloy : forall query model_path body e,
  Tools.handle_errors query model_path body = Raise e -> exists m c, e = MalloyError m c.
Proof.
  intros query model_path [a | []] e H; cbn in H; try discriminate H;
    injection H as <-; eauto.
Qed.

End QueryMore.

(** tools.py: when the call succeeds, the row data decodes, and each of the
    two other fields is omitted, empty, or decodes, the tool returns the
    dict of the three decoded values (omitted or empty fields as [{}]). *)
Theorem tools_decoded_payload : forall loads app query model_path r ds md s qr,
  Query.execute_query app
    (Query.MkQueryParams (Query.project_name app) (Query.split_first model_path) model_path query)
    = Ok r ->
  Payload.decodes_to loads (Query.data_styles r) (JObj []) ds ->
  Payload.decodes_to loads (Query.model_def r) (JObj []) md ->
  Query.query_result r = Some s -> loads s = inl qr ->
  snd (Query.Tools.execute_malloy_query loads app query model_path)
    = Ok (JObj [("data_styles", ds); ("model_def", md); ("query_result", qr)]).
Proof.
  intros loads app query model_path r ds md s qr Hok Hds Hmd Hq Hl.
  unfold Query.Tools.execute_malloy_query. cbv zeta. rewrite Hok. cbn [bind].
  unfold Query.Tools.parse_results.
  rewrite (decodes_to_loads_or loads _ _ _ Hds). cbn [bind].
  rewrite (decodes_to_loads_or loads _ _ _ Hmd). cbn [bind].
  rewrite Hq. cbn. rewrite Hl. reflexivity.
Qed.

Lemma tools_decoded_payload_witness :
  snd (Query.Tools.execute_malloy_query Query.loads_literals
         (Query.app_answering (Query.MkQueryResult None (Some "") (Some "[]")))
         "run: flights -> by_carrier" "faa/flights.malloy")
    = Ok (JObj [("data_styles", JObj []); ("model_def", JObj []); ("query_result", JArr [])]).
Proof.
  apply (tools_decoded_payload Query.loads_literals
           (Query.app_answering (Query.MkQueryResult None (Some "") (Some "[]")))
           _ _ (Query.MkQueryResult None (Some "") (Some "[]")) _ _ "[]");
    cbn; auto.
Defined.

(** tools.py raises only [MalloyError]s; when the remote call fails with
    [e], the error carries ["Query execution failed: " + str(e)] and the
    query, model path, project and package (the text before the first
    ["/"] of the model path). *)
Theorem tools_errors_are_malloy_errors : forall loads app query model_path,
  (forall e, snd (Query.Tools.execute_malloy_query loads app query model_path) = Raise e ->
             exists m c, e = MalloyError m c) /\
  (forall e,
     Query.execute_query app
       (Query.MkQueryParams (Query.project_name app) (Query.split_first model_path) model_path query)
       = Raise e ->
     snd (Query.Tools.execute_malloy_query loads app query model_path)
       = Raise (MalloyError ("Query execution failed: " ++ exn_str e)
                  [("query", query); ("model_path", model_path);
                   ("project", Query.project_name app);
                   ("package", Query.split_first model_path)])).
Proof.
  intros loads app query model_path. split.
  - intros e H. exact (handle_errors_malloy _ _ _ e H).
  - intros e H. unfold Query.Tools.execute_malloy_query. cbv zeta. rewrite H. reflexivity.
Qed.

(** tools/query_executor.py: when the call succeeds and each of the three
    fields is omitted, empty, or decodes to a value of the shape
    [QueryOutput] accepts (an object for the data styles and the model, an
    array of objects for the rows), the tool returns the three decoded
    values, an omitted or empty field as [{}] ([[]] for the row data). *)
Theorem query_executor_decoded_payload : forall loads app query model_path r fds fmd rows,
  Query.execute_query app
    (Query.MkQueryParams "home" (Query.split_first model_path) model_path query) = Ok r ->
  Payload.decodes_to loads (Query.data_styles r) (JObj []) (JObj fds) ->
  Payload.decodes_to loads (Query.model_def r) (JObj []) (JObj fmd) ->
  Payload.decodes_to loads (Query.query_result r) (JArr []) (JArr rows) ->
  Forall (fun row => exists f, row = JObj f) rows ->
  snd (Query.QueryExecutor.execute_malloy_query loads app query model_path)
    = Ok (JObj [("data_styles", JObj fds); ("model_def", JObj fmd);
                ("query_result", JArr rows)]).
Proof.
  intros loads app query model_path r fds fmd rows Hok Hds Hmd Hqr _.
  unfold Query.QueryExecutor.execute_malloy_query. cbv zeta. rewrite Hok. cbn [bind].
  rewrite (decodes_to_loads_or loads _ _ _ Hds). cbn [bind].
  rewrite (decodes_to_loads_or loads _ _ _ Hmd). cbn [bind].
  rewrite (decodes_to_loads_or loads _ _ _ Hqr). reflexivity.
Qed.

Lemma query_executor_decoded_payload_witness :
  snd (Query.QueryExecutor.execute_malloy_query Query.loads_literals
         (Query.app_answering (Query.MkQueryResult (Some "{}") None None))
         "run: flights -> by_carrier" "faa/flights.malloy")
    = Ok (JObj [("data_styles", JObj []); ("model_def", JObj []); ("query_result", JArr [])]).
Proof.
  apply (query_executor_decoded_payload Query.loads_literals
           (Query.app_answering (Query.MkQueryResult (Some "{}") None None))
           _ _ (Query.MkQueryResult (Some "{}") None None)); cbn; auto.
  right. split; [discriminate | reflexivity].
Defined.

Section CatalogMore.

Import Connection Catalog CatalogSamples.

Lemma map_fst_combine_Forall2 {A B : Type} (R : A -> B -> Prop) : forall l1 l2,
  Forall2 R l1 l2 -> map fst (combine l1 l2) = l1.
Proof. intros l1 l2 H. induction H; cbn; congruence. Qed.

Lemma firstn_app_length {A : Type} : forall (l1 l2 : list A) n,
  length l1 = n -> firstn n (l1 ++ l2)%list = l1.
Proof.
  induction l1 as [| a l1 IH]; intros l2 n H; cbn in H; subst; [reflexivity |].
  cbn. rewrite IH; reflexivity.
Qed.

Lemma listed_unique : forall c packages l1 l2,
  listed c packages l1 -> listed c packages l2 -> l1 = l2.
Proof.
  intros c packages l1 l2 H1. revert l2.
  induction H1 as [| p ms ps mss Hp _ IH]; intros l2 H2; inversion H2; subst; [reflexivity |].
  f_equal; [congruence | auto].
Qed.

Lemma collect_package_metadata_ok : forall c packages pms,
  collect_package_metadata c packages = Ok pms ->
  exists listings, listed c packages listings /\
    pms = map (fun '(p, ms) => MkPackageMetadata (pkg_name p) (pkg_description p)
                                 (pkg_version p) (map model_path ms))
              (combine packages listings).
Proof.
  intros c packages. induction packages as [| p rest IH]; intros pms H.
  - cbn in H. injection H as <-. exists []. split; [constructor | reflexivity].
  - cbn in H. destruct (list_models c PROJECT_NAME (pkg_name p)) as [ms |] eqn:Hl;
      cbn in H; [| discriminate].
    destruct (collect_package_metadata c rest) as [tl |] eqn:Ht; cbn in H; [| discriminate].
    injection H as <-. destruct (IH tl eq_refl) as [ls [Hls ->]].
    exists (ms :: ls). split; [constructor; assumption | reflexivity].
Qed.

Lemma collect_models_of_ok : forall c pkg models mms,
  collect_models_of c pkg models = Ok mms ->
  map mm_path mms = map model_path models /\ Forall (fun m => mm_model_schema m = []) mms.
Proof.
  intros c pkg models. induction models as [| m rest IH]; intros mms H.
  - cbn in H. injection H as <-. split; [reflexivity | constructor].
  - cbn in H. destruct (get_model c PROJECT_NAME (pkg_name pkg) (model_path m)); cbn in H;
      [| discriminate].
    destruct (collect_models_of c pkg rest) as [tl |]; cbn in H; [| discriminate].
    injection H as <-. destruct (IH tl eq_refl) as [H1 H2].
    split; [cbn; f_equal; exact H1 | constructor; [reflexivity | exact H2]].
Qed.

Lemma collect_model_metadata_ok : forall c packages mms,
  collect_model_metadata c packages = Ok mms ->
  exists listings, listed c packages listings /\
    map mm_path mms = map model_path (concat listings) /\
    Forall (fun m => mm_model_schema m = []) mms.
Proof.
  intros c packages. induction packages as [| p rest IH]; intros mms H.
  - cbn in H. injection H as <-. exists []. split; [constructor | split; [reflexivity | constructor]].
  - cbn in H. destruct (list_models c PROJECT_NAME (pkg_name p)) as [ms |] eqn:Hl;
      cbn in H; [| discriminate].
    destruct (collect_models_of c p ms) as [here |] eqn:Hh; cbn in H; [| discriminate].
    destruct (collect_model_metadata c rest) as [tl |] eqn:Ht; cbn in H; [| discriminate].
    injection H as <-. destruct (IH tl eq_refl) as [ls [Hls [Hp Hs]]].
    destruct (collect_models_of_ok c p ms here Hh) as [Hp' Hs'].
    exists (ms :: ls). split; [constructor; assumption |]. split.
    + cbn. rewrite !map_app, Hp', Hp. reflexivity.
    + apply Forall_app. split; assumption.
Qed.

Lemma register_resources_ok_inv : forall c log rs,
  register_resources c = (log, Ok rs) ->
  log = [] /\ exists prj packages pms mms,
    list_packages c PROJECT_NAME = Ok packages /\
    collect_package_metadata c packages = Ok pms /\
    collect_model_metadata c packages = Ok mms /\
    rs = resources_of (MkProjectMetadata PROJECT_NAME (project_description prj) pms mms) pms mms.
Proof.
  intros c log rs H. unfold register_resources, load in H.
  destruct (get_project c PROJECT_NAME) as [prj |]; cbn in H; [| discriminate].
  destruct (list_packages c PROJECT_NAME) as [packages |] eqn:H1; cbn in H; [| discriminate].
  destruct (collect_package_metadata c packages) as [pms |] eqn:H2; cbn in H; [| discriminate].
  destruct (collect_model_metadata c packages) as [mms |] eqn:H3; cbn in H; [| discriminate].
  injection H as <- <-. split; [reflexivity |]. exists prj, packages, pms, mms.
  repeat split; first [reflexivity | assumption].
Qed.

End CatalogMore.

(** server.py, [register_resources]: when it succeeds it logs nothing, and
    it registers the project metadata first, then one resource per listed
    package, named after the package, then one per model listed for those
    packages, named after the model's path, in listing order. *)
Theorem register_resources_success_layout : forall c log rs,
  Catalog.register_resources c = (log, Ok rs) ->
  log = [] /\
  exists packages listings,
    Catalog.list_packages c "home" = Ok packages /\
    Forall2 (fun p ms => Catalog.list_models c "home" (Catalog.pkg_name p) = Ok ms)
      packages listings /\
    map Catalog.res_name rs
      = ("malloy://project/home/metadata"
         :: map (fun p => ("malloy://project/home/package/" ++ Catalog.pkg_name p)%string)
                packages
         ++ map (fun m => ("malloy://project/home/model/" ++ Catalog.model_path m)%string)
                (concat listings))%list.
Proof.
  intros c log rs H.
  destruct (register_resources_ok_inv c log rs H)
    as [-> [prj [packages [pms [mms [Hp [Hpm [Hmm ->]]]]]]]].
  split; [reflexivity |].
  destruct (collect_package_metadata_ok c packages pms Hpm) as [ls1 [Hl1 ->]].
  destruct (collect_model_metadata_ok c packages mms Hmm) as [ls2 [Hl2 [Hpaths _]]].
  pose proof (listed_unique c packages ls1 ls2 Hl1 Hl2) as <-.
  exists packages, ls1. split; [exact Hp |]. split; [exact Hl1 |].
  unfold Catalog.resources_of. cbn [map]. f_equal. rewrite !map_app, !map_map. f_equal.
  - rewrite <- (map_fst_combine_Forall2 _ packages ls1 Hl1) at 2. rewrite map_map.
    apply map_ext. intros [p ms]. reflexivity.
  - rewrite <- (map_map Catalog.mm_path (fun s => "malloy://project/home/model/" ++ s)).
    rewrite Hpaths, map_map. reflexivity.
Qed.

Lemma register_resources_success_layout_witness :
  Catalog.register_resources CatalogSamples.pub_ok = ([], Ok CatalogSamples.pub_ok_resources) /\
  map Catalog.res_name CatalogSamples.pub_ok_resources
    = ["malloy://project/home/metadata"; "malloy://project/home/package/a";
       "malloy://project/home/package/b"; "malloy://project/home/model/a/one.malloy";
       "malloy://project/home/model/a/two.malloy"].
Proof.
  split; [vm_compute; reflexivity |].
  destruct (register_resources_success_layout CatalogSamples.pub_ok []
              CatalogSamples.pub_ok_resources ltac:(vm_compute; reflexivity))
    as [_ [packages [listings [Hp [Hl ->]]]]].
  vm_compute in Hp. injection Hp as <-.
  inversion Hl as [| p1 ms1 ps1 mss1 H1 Hl1]; subst.
  inversion Hl1 as [| p2 ms2 ps2 mss2 H2 Hl2]; subst.
  inversion Hl2; subst.
  vm_compute in H1, H2. injection H1 as <-. injection H2 as <-. reflexivity.
Defined.

(** server.py, [register_resources]: the package resources, in order, one
    per listed package: named and described after the package, their
    version the package's or ["1.0"] when it has none, their model list
    the paths listed for the package. *)
Theorem register_resources_package_entries : forall c log rs,
  Catalog.register_resources c = (log, Ok rs) ->
  exists packages listings,
    Catalog.list_packages c "home" = Ok packages /\
    Forall2 (fun p ms => Catalog.list_models c "home" (Catalog.pkg_name p) = Ok ms)
      packages listings /\
    firstn (length packages) (tl rs)
      = map (fun '(p, ms) =>
               Catalog.Resource ("malloy://project/home/package/" ++ Catalog.pkg_name p)
                 ("Metadata for the " ++ Catalog.pkg_name p ++ " package")
                 (Catalog.PackageData
                    (Catalog.MkPackageMetadata (Catalog.pkg_name p) (Catalog.pkg_description p)
                       (Catalog.pkg_version p) (map Catalog.model_path ms)))
                 (py_or (Catalog.pkg_version p) "1.0"))
            (combine packages listings).
Proof.
  intros c log rs H.
  destruct (register_resources_ok_inv c log rs H)
    as [_ [prj [packages [pms [mms [Hp [Hpm [Hmm ->]]]]]]]].
  destruct (collect_package_metadata_ok c packages pms Hpm) as [ls [Hl ->]].
  exists packages, ls. split; [exact Hp |]. split; [exact Hl |].
  unfold Catalog.resources_of. cbn [tl]. rewrite firstn_app_length.
  - rewrite map_map. apply map_ext. intros [p ms]. reflexivity.
  - rewrite !length_map, length_combine.
    rewrite (Forall2_length Hl), Nat.min_id. reflexivity.
Qed.

Lemma register_resources_package_entries_witness :
  Catalog.register_resources CatalogSamples.pub_ok = ([], Ok CatalogSamples.pub_ok_resources) /\
  map Catalog.res_version (firstn 2 (tl CatalogSamples.pub_ok_resources)) = ["1.0"; "2.0"].
Proof.
  split; [vm_compute; reflexivity |].
  destruct (register_resources_package_entries CatalogSamples.pub_ok []
              CatalogSamples.pub_ok_resources ltac:(vm_compute; reflexivity))
    as [packages [listings [Hp [Hl He]]]].
  vm_compute in Hp. injection Hp as <-. cbn [length] in He. rewrite He.
  inversion Hl as [| p1 ms1 ps1 mss1 H1 Hl1]; subst.
  inversion Hl1 as [| p2 ms2 ps2 mss2 H2 Hl2]; subst.
  inversion Hl2; subst. reflexivity.
Defined.

(** server.py, [register_resources]: the schema fetched with each model
    is never stored: every registered model metadata, as a resource of its
    own or inside the project metadata, has the empty [model_schema]. *)
Theorem register_resources_never_stores_schema : forall c log rs,
  Catalog.register_resources c = (log, Ok rs) ->
  (forall m, In (Catalog.ModelData m) (map Catalog.res_data rs) ->
             Catalog.mm_model_schema m = []) /\
  (forall pm, In (Catalog.ProjectData pm) (map Catalog.res_data rs) ->
              Forall (fun m => Catalog.mm_model_schema m = []) (Catalog.prj_models pm)).
Proof.
  intros c log rs H.
  destruct (register_resources_ok_inv c log rs H)
    as [_ [prj [packages [pms [mms [Hp [Hpm [Hmm ->]]]]]]]].
  destruct (collect_model_metadata_ok c packages mms Hmm) as [ls [_ [_ Hs]]].
  unfold Catalog.resources_of. cbn [map]. rewrite !map_app, !map_map. cbn.
  split.
  - intros m [Hm | Hm]; [discriminate |].
    apply in_app_iff in Hm as [Hm | Hm]; apply in_map_iff in Hm as [x [Hx Hin]];
      [discriminate |].
    injection Hx as ->. rewrite Forall_forall in Hs. exact (Hs m Hin).
  - intros pm [Hm | Hm].
    + injection Hm as <-. exact Hs.
    + apply in_app_iff in Hm as [Hm | Hm]; apply in_map_iff in Hm as [x [Hx _]]; discriminate.
Qed.

Lemma register_resources_never_stores_schema_witness :
  Catalog.register_resources CatalogSamples.pub_ok = ([], Ok CatalogSamples.pub_ok_resources) /\
  (forall m, In (Catalog.ModelData m) (map Catalog.res_data CatalogSamples.pub_ok_resources) ->
             Catalog.mm_model_schema m = []).
Proof.
  split; [vm_compute; reflexivity |].
  apply (register_resources_never_stores_schema CatalogSamples.pub_ok []
           CatalogSamples.pub_ok_resources ltac:(vm_compute; reflexivity)).
Defined.

Section TextFacts.

Lemma string_app_assoc : forall a b c : string, ((a ++ b) ++ c = a ++ b ++ c)%string.
Proof. induction a as [| x a IH]; intros b c; [reflexivity |]. cbn. rewrite IH. reflexivity. Qed.

Lemma string_app_nil_r : forall a : string, (a ++ "")%string = a.
Proof. induction a as [| x a IH]; [reflexivity |]. cbn. rewrite IH. reflexivity. Qed.

Lemma string_length_app : forall a b : string,
  String.length (a ++ b) = (String.length a + String.length b)%nat.
Proof. induction a as [| x a IH]; intros b; [reflexivity |]. cbn. rewrite IH. reflexivity. Qed.

Lemma has_char_app : forall c a b,
  Server.has_char c (a ++ b) = (Server.has_char c a || Server.has_char c b)%bool.
Proof.
  intros c. induction a as [| x a IH]; intros b; [reflexivity |].
  cbn. rewrite IH. apply orb_assoc.
Qed.

Lemma split_lines_acc_no_nl : forall s cur,
  Server.has_char (ascii_of_nat 10) s = false -> split_lines_acc cur s = [(cur ++ s)%string].
Proof.
  induction s as [| x s IH]; intros cur H.
  - cbn. rewrite string_app_nil_r. reflexivity.
  - cbn [Server.has_char] in H. apply orb_false_iff in H as [Hx Hs].
    cbn [split_lines_acc]. rewrite Ascii.eqb_sym, Hx. rewrite IH by exact Hs.
    rewrite string_app_assoc. reflexivity.
Qed.

Lemma split_lines_acc_nl : forall a b cur,
  Server.has_char (ascii_of_nat 10) a = false ->
  split_lines_acc cur (a ++ nl ++ b) = (cur ++ a)%string :: split_lines_acc "" b.
Proof.
  induction a as [| x a IH]; intros b cur H.
  - cbn. rewrite string_app_nil_r. reflexivity.
  - cbn [Server.has_char] in H. apply orb_false_iff in H as [Hx Ha].
    cbn [append split_lines_acc]. rewrite Ascii.eqb_sym, Hx. rewrite IH by exact Ha.
    rewrite string_app_assoc. reflexivity.
Qed.

Lemma split_lines_join : forall xs,
  xs <> [] -> Forall (fun x => Server.has_char (ascii_of_nat 10) x = false) xs ->
  split_lines_acc "" (join nl xs) = xs.
Proof.
  induction xs as [| x rest IH]; intros Hne H; [congruence |].
  inversion H as [| ? ? Hx Hrest]; subst.
  destruct rest as [| y rest'].
  - cbn [join]. rewrite split_lines_acc_no_nl by exact Hx. reflexivity.
  - change (join nl (x :: y :: rest')) with (x ++ nl ++ join nl (y :: rest'))%string.
    rewrite split_lines_acc_nl by exact Hx. rewrite IH by (discriminate || exact Hrest).
    reflexivity.
Qed.

End TextFacts.

(** errors.py, [format_error]: the text always starts with
    ["Error: " + message], and is exactly that text when the context is
    empty, which is what an error built with no context (or [None]) has. *)
Theorem format_error_bare_iff_no_context : forall message context,
  (exists rest, Errors.format_error message context = ("Error: " ++ message ++ rest)%string) /\
  (Errors.format_error message context = ("Error: " ++ message)%string <-> context = []) /\
  (forall ctx, (ctx = None \/ ctx = Some []) ->
     Errors.make_malloy_error message ctx = MalloyError message []).
Proof.
  intros message context. split; [| split].
  - destruct context as [| kv rest]; cbn [Errors.format_error].
    + exists "". rewrite string_app_nil_r. reflexivity.
    + eexists. rewrite string_app_assoc. reflexivity.
  - destruct context as [| kv rest]; cbn [Errors.format_error]; split; try reflexivity.
    + intros H. apply (f_equal String.length) in H. rewrite !string_length_app in H.
      cbn in H. lia.
    + discriminate.
  - intros ctx [-> | ->]; reflexivity.
Qed.

(** errors.py, [format_error]: when the message, the keys and the values
    hold no newline, splitting a context-carrying error's text on newlines
    gives back the header line, the ["Context:"] line and one
    ["  key: value"] line per entry, in order. *)
Theorem format_error_lines : forall message context,
  context <> [] ->
  Server.has_char (ascii_of_nat 10) message = false ->
  Forall (fun '(k, v) => Server.has_char (ascii_of_nat 10) k = false /\
                         Server.has_char (ascii_of_nat 10) v = false) context ->
  split_lines (Errors.format_error message context)
    = ("Error: " ++ message)%string :: "Context:"
      :: map (fun '(k, v) => "  " ++ k ++ ": " ++ v)%string context.
Proof.
  intros message context Hne Hm Hc. destruct context as [| kv rest]; [congruence |].
  unfold split_lines. cbn [Errors.format_error].
  rewrite split_lines_acc_nl
    by (rewrite has_char_app, Hm; reflexivity).
  change ("Context:" ++ nl ++ join nl (map (fun '(k, v) => "  " ++ k ++ ": " ++ v)
            (kv :: rest)))%string
    with ("Context:" ++ nl ++ join nl (map (fun '(k, v) => "  " ++ k ++ ": " ++ v)
            (kv :: rest)))%string.
  rewrite split_lines_acc_nl by reflexivity.
  rewrite split_lines_join.
  - reflexivity.
  - discriminate.
  - apply Forall_map. eapply Forall_impl; [| exact Hc].
    intros [k v] [Hk Hv]. rewrite !has_char_app, Hk, Hv. reflexivity.
Qed.

Lemma format_error_lines_witness :
  split_lines (Errors.format_error "Query execution failed: boom"
                 [("query", "run: flights -> by_carrier"); ("model_path", "faa/flights.malloy")])
    = ["Error: Query execution failed: boom"; "Context:";
       "  query: run: flights -> by_carrier"; "  model_path: faa/flights.malloy"].
Proof.
  apply format_error_lines; [discriminate | reflexivity |].
  repeat constructor.
Defined.

Lemma repr_plain : forall s,
  forallb Server.plain_char (list_ascii_of_string s) = true ->
  Server.py_repr s = ("'" ++ s ++ "'")%string.
Proof.
  assert (Hb : forall s, forallb Server.plain_char (list_ascii_of_string s) = true ->
                         Server.repr_body "'"%char s = s /\ Server.has_char "'"%char s = false).
  { induction s as [| c s IH]; intros H; [split; reflexivity |].
    cbn [list_ascii_of_string forallb] in H. apply andb_true_iff in H as [Hc Hs].
    destruct (IH Hs) as [IH1 IH2].
    unfold Server.plain_char in Hc.
    apply andb_true_iff in Hc as [Hc Hbs]. apply andb_true_iff in Hc as [Hc Hq].
    apply andb_true_iff in Hc as [Hlo Hhi].
    apply negb_true_iff in Hq, Hbs. apply Nat.leb_le in Hlo. apply Nat.ltb_lt in Hhi.
    cbn [Server.repr_body Server.has_char]. rewrite IH1, IH2. split.
    - unfold Server.repr_char. rewrite Hq, Hbs. cbn [orb].
      replace (Nat.eqb (nat_of_ascii c) 9) with false by (symmetry; apply Nat.eqb_neq; lia).
      replace (Nat.eqb (nat_of_ascii c) 10) with false by (symmetry; apply Nat.eqb_neq; lia).
      replace (Nat.eqb (nat_of_ascii c) 13) with false by (symmetry; apply Nat.eqb_neq; lia).
      replace (Nat.ltb (nat_of_ascii c) 32) with false by (symmetry; apply Nat.ltb_ge; lia).
      replace (Nat.eqb (nat_of_ascii c) 127) with false by (symmetry; apply Nat.eqb_neq; lia).
      reflexivity.
    - rewrite Ascii.eqb_sym, Hq. reflexivity. }
  intros s H. destruct (Hb s H) as [H1 H2].
  unfold Server.py_repr. rewrite H2. cbn [andb]. rewrite H1. reflexivity.
Qed.

(** server.py, [execute_malloy_query]: when the query and the model path
    are plain text, the error message is [str(e)], a newline, and the
    context dict as Python prints it, with project ['home']. *)
Theorem server_execute_error_message : forall run_query params e,
  run_query "home" (Server.model_path params) (Server.query params) = Raise e ->
  forallb Server.plain_char (list_ascii_of_string (Server.query params)) = true ->
  forallb Server.plain_char (list_ascii_of_string (Server.model_path params)) = true ->
  snd (Server.execute_malloy_query run_query params)
    = Raise (ValueError ("Failed to execute Malloy query: " ++ exn_str e ++ nl
        ++ "Context: {'query': '" ++ Server.query params
        ++ "', 'model_path': '" ++ Server.model_path params
        ++ "', 'project': 'home'}")).
Proof.
  intros run_query params e H Hq Hm. unfold Server.execute_malloy_query.
  change Connection.PROJECT_NAME with "home". rewrite H. cbn [snd].
  unfold Server.dict_repr. cbn [map join]. rewrite !repr_plain by (assumption || reflexivity).
  rewrite !string_app_assoc. reflexivity.
Qed.

Lemma server_execute_error_message_witness :
  snd (Server.execute_malloy_query (fun _ _ _ => Raise (PublisherError "timeout"))
         (Server.MkMalloyQueryInput "run: flights -> by_carrier" "faa/flights.malloy"))
    = Raise (ValueError ("Failed to execute Malloy query: " ++ exn_str (PublisherError "timeout")
        ++ nl ++ "Context: {'query': 'run: flights -> by_carrier', "
        ++ "'model_path': 'faa/flights.malloy', 'project': 'home'}")).
Proof.
  rewrite (server_execute_error_message (fun _ _ _ => Raise (PublisherError "timeout"))
             (Server.MkMalloyQueryInput "run: flights -> by_carrier" "faa/flights.malloy")
             (PublisherError "timeout") eq_refl eq_refl eq_refl).
  reflexivity.
Defined.

(** server.py, [create_malloy_query]: for a source name holding no
    newline, the returned query text is the fixed template, line by line:
    a leading empty line, the [query:] line naming the source, then the
    [group_by: dimension1] and [aggregate: measure1] block, and a last line
    of eight spaces. *)
Theorem create_query_text_lines : forall model_path requirements source rest,
  Server.has_char (ascii_of_nat 10) source = false ->
  exists d, Server.create_malloy_query model_path requirements (source :: rest)
              = Server.Returned d /\
    option_map split_lines (assoc "query" d)
      = Some [""; ("        query: " ++ source ++ " ->")%string; "        {";
              "            group_by: dimension1"; "            aggregate:";
              "                measure1"; "        }"; "        "] /\
    assoc "explanation" d = Some Server.explanation.
Proof.
  intros model_path requirements source rest H. eexists. split; [reflexivity |].
  split; [| reflexivity].
  cbn [assoc String.eqb Ascii.eqb Bool.eqb andb option_map]. f_equal.
  unfold split_lines, Server.query_text.
  match goal with |- split_lines_acc "" (nl ++ ?X) = _ =>
    change (split_lines_acc "" (nl ++ X)) with ("" :: split_lines_acc "" X) end.
  f_equal.
  match goal with |- split_lines_acc "" ("        query: " ++ source ++ " ->" ++ nl ++ ?Y) = _ =>
    replace ("        query: " ++ source ++ " ->" ++ nl ++ Y)%string
      with (("        query: " ++ source ++ " ->") ++ nl ++ Y)%string
      by (rewrite !string_app_assoc; reflexivity) end.
  rewrite split_lines_acc_nl by (rewrite !has_char_app, H; reflexivity).
  reflexivity.
Qed.

Lemma create_query_text_lines_witness :
  exists d, Server.create_malloy_query "faa/flights.malloy" "count flights by carrier"
              ["flights"] = Server.Returned d /\
    option_map split_lines (assoc "query" d)
      = Some [""; "        query: flights ->"; "        {";
              "            group_by: dimension1"; "            aggregate:";
              "                measure1"; "        }"; "        "] /\
    assoc "explanation" d = Some Server.explanation.
Proof.
  apply (create_query_text_lines "faa/flights.malloy" "count flights by carrier" "flights" []).
  reflexivity.
Defined.


(** ** resources.py: registration on a FastMCP server *)

Section ResourceFacts.

Import Resources.

Lemma resource_grows : forall uri fn reg,
  exists added, resources (fst (resource uri fn reg)) = app (resources reg) added /\
    Forall (fun e => fst e = uri) added.
Proof.
  intros uri fn reg. unfold resource.
  destruct (contains "{"%char uri && contains "}"%char uri).
  - destruct (nodup string_dec (uri_params uri));
      exists []; rewrite app_nil_r; split; constructor.
  - exists [(uri, fn)]. split; [reflexivity | constructor; [reflexivity | constructor]].
Qed.


Lemma resource_concrete : forall uri fn reg,
  contains "{"%char uri = false ->
  resource uri fn reg = (MkRegistry (app (resources reg) [(uri, fn)]) (templates reg), Ok tt).
Proof. intros uri fn reg H. unfold resource. rewrite H. reflexivity. Qed.

Lemma and_then_grows : forall (P : string * handler -> Prop) o reg k,
  (exists added, resources (fst o) = app (resources reg) added /\ Forall P added) ->
  (forall r, exists added, resources (fst (k r)) = app (resources r) added /\ Forall P added) ->
  exists added, resources (fst (and_then o k)) = app (resources reg) added /\ Forall P added.
Proof.
  intros P [r [[] | e]] reg k [a1 [H1 P1]] Hk; cbn [and_then fst] in *.
  - destruct (Hk r) as [a2 [H2 P2]]. exists (app a1 a2). split.
    + rewrite H2, H1, app_assoc. reflexivity.
    + apply Forall_app. split; assumption.
  - exists a1. split; assumption.
Qed.

Lemma for_each_grows {A : Type} : forall (P : string * handler -> Prop) (f : A -> registry -> outcome),
  (forall x r, exists added, resources (fst (f x r)) = app (resources r) added /\ Forall P added) ->
  forall l reg, exists added,
    resources (fst (for_each f l reg)) = app (resources reg) added /\ Forall P added.
Proof.
  intros P f Hf l. induction l as [| x rest IH]; intros reg.
  - exists []. rewrite app_nil_r. split; [reflexivity | constructor].
  - cbn [for_each]. apply and_then_grows; [apply Hf | exact IH].
Qed.



(** Every resource [register_resources] adds, the health check apart,
    lives on host [project]. *)
Lemma register_loops_on_project : forall packages models reg,
  exists added,
    resources (fst (and_then (for_each register_package packages reg)
                      (fun r => for_each register_model models r)))
      = app (resources reg) added /\
    Forall (fun e => exists s, fst e = ("malloy://project/" ++ s)%string) added.
Proof.
  intros packages models reg. apply and_then_grows.
  - apply for_each_grows. intros pkg r. unfold register_package.
    destruct (resource_grows ("malloy://project/home/package/" ++ package_name pkg)
                (get_package pkg) r) as [a [Ha Pa]].
    exists a. split; [exact Ha |]. eapply Forall_impl; [| exact Pa].
    intros e He. exists ("home/package/" ++ package_name pkg)%string. rewrite He. reflexivity.
  - intros r. apply for_each_grows. intros m r'. unfold register_model.
    destruct (resource_grows ("malloy://project/home/model/" ++ model_path m)
                (get_model m) r') as [a [Ha Pa]].
    exists a. split; [exact Ha |]. eapply Forall_impl; [| exact Pa].
    intros e He. exists ("home/model/" ++ model_path m)%string. rewrite He. reflexivity.
Qed.

Lemma register_resources_unfold : forall reg project packages models,
  register_resources reg project packages models
    = and_then
        (and_then (for_each register_package packages
                     (MkRegistry (app (resources reg)
                                    [("malloy://project/home/metadata",
                                      get_project_metadata project packages models)])
                        (templates reg)))
           (fun r => for_each register_model models r))
        (fun r => resource "malloy://healthcheck" get_healthcheck r).
Proof.
  intros reg project packages models. unfold register_resources.
  rewrite resource_concrete by reflexivity. cbn [and_then].
  destruct (for_each register_package packages _) as [r [[] | e]]; reflexivity.
Qed.

Lemma assoc_map_set_other {V : Type} : forall k k' v (d : list (string * V)),
  String.eqb k k' = false ->
  assoc k (map (fun '(k0, v0) => if String.eqb k0 k' then (k0, v) else (k0, v0)) d) = assoc k d.
Proof.
  intros k k' v d Hk. induction d as [| [k0 v0] rest IH]; [reflexivity |].
  cbn [map]. destruct (String.eqb k0 k') eqn:E0; cbn [assoc];
    destruct (String.eqb k k0) eqn:E1; try exact IH.
  - apply String.eqb_eq in E0, E1. subst. rewrite String.eqb_refl in Hk. discriminate Hk.
  - reflexivity.
Qed.

Lemma assoc_map_set_same {V : Type} : forall k v (d : list (string * V)),
  existsb (fun '(k0, _) => String.eqb k0 k) d = true ->
  assoc k (map (fun '(k0, v0) => if String.eqb k0 k then (k0, v) else (k0, v0)) d) = Some v.
Proof.
  intros k v d Ex. induction d as [| [k0 v0] rest IH]; [discriminate Ex |].
  cbn [existsb] in Ex. cbn [map]. destruct (String.eqb k0 k) eqn:E0.
  - apply String.eqb_eq in E0. subst k0. cbn [assoc]. rewrite String.eqb_refl. reflexivity.
  - cbn [assoc]. destruct (String.eqb k k0) eqn:E1.
    + apply String.eqb_eq in E1. subst k0. rewrite String.eqb_refl in E0. discriminate E0.
    + apply IH. exact Ex.
Qed.

Lemma assoc_app_absent {V : Type} : forall k v (d : list (string * V)),
  existsb (fun '(k0, _) => String.eqb k0 k) d = false ->
  assoc k (app d [(k, v)]) = Some v.
Proof.
  intros k v d Ex. induction d as [| [k0 v0] rest IH].
  - cbn. rewrite String.eqb_refl. reflexivity.
  - cbn [existsb] in Ex. apply orb_false_iff in Ex as [E0 Ex].
    cbn [app assoc]. destruct (String.eqb k k0) eqn:E1.
    + apply String.eqb_eq in E1. subst k0. rewrite String.eqb_refl in E0. discriminate E0.
    + apply IH. exact Ex.
Qed.

Lemma assoc_app_other {V : Type} : forall k k' v (d : list (string * V)),
  String.eqb k k' = false -> assoc k (app d [(k', v)]) = assoc k d.
Proof.
  intros k k' v d Hk. induction d as [| [k0 v0] rest IH].
  - cbn. rewrite Hk. reflexivity.
  - cbn [app assoc]. destruct (String.eqb k k0); [reflexivity | exact IH].
Qed.

Lemma assoc_dict_set : forall k k' v d,
  assoc k (dict_set k' v d) = if String.eqb k k' then Some v else assoc k d.
Proof.
  intros k k' v d. unfold dict_set.
  destruct (String.eqb k k') eqn:Hk.
  - apply String.eqb_eq in Hk. subst k'.
    destruct (existsb (fun '(k0, _) => String.eqb k0 k) d) eqn:Ex.
    + apply assoc_map_set_same. exact Ex.
    + apply assoc_app_absent. exact Ex.
  - destruct (existsb (fun '(k0, _) => String.eqb k0 k') d).
    + apply assoc_map_set_other. exact Hk.
    + apply assoc_app_other. exact Hk.
Qed.

End ResourceFacts.




(** resources.py, [register_resources] on a fresh server: reading
    [malloy://project/home/metadata] gives a dict whose ["packages"] and
    ["models"] keys hold the dumps of all packages and all models, and
    whose every other key keeps its value in the project's dump, whatever
    the later registrations do. *)
Theorem resources_read_metadata : forall (url_key : string -> string) project packages models,
  exists d,
    Resources.read_resource url_key
      (fst (Resources.register_resources Resources.empty_registry project packages models))
      "malloy://project/home/metadata" = Resources.Read (JObj d) /\
    assoc "packages" d = Some (JArr (map Resources.package_dump packages)) /\
    assoc "models" d = Some (JArr (map Resources.model_dump models)) /\
    (forall k, k <> "packages" -> k <> "models" -> assoc k d = assoc k (Resources.project_dump project)).
Proof.
  intros url_key project packages models.
  rewrite register_resources_unfold.
  set (r1 := Resources.MkRegistry _ _).
  assert (Hg : exists added,
            Resources.resources (fst (Resources.and_then
              (Resources.and_then (Resources.for_each Resources.register_package packages r1)
                 (fun r => Resources.for_each Resources.register_model models r))
              (fun r => Resources.resource "malloy://healthcheck" Resources.get_healthcheck r)))
            = app (Resources.resources r1) added /\ Forall (fun _ => True) added).
  { apply and_then_grows.
    - destruct (register_loops_on_project packages models r1) as [a [Ha _]].
      exists a. split; [exact Ha | apply Forall_forall; auto].
    - intros r. destruct (resource_grows "malloy://healthcheck" Resources.get_healthcheck r)
        as [a [Ha _]]. exists a. split; [exact Ha | apply Forall_forall; auto]. }
  destruct Hg as [added [Hadd _]].
  eexists. split.
  - unfold Resources.read_resource. rewrite Hadd. subst r1. cbn [Resources.resources Resources.empty_registry app find].
    rewrite String.eqb_refl. reflexivity.
  - cbn beta. split; [| split].
    + rewrite assoc_dict_set. cbn. rewrite assoc_dict_set. reflexivity.
    + rewrite assoc_dict_set. reflexivity.
    + intros k Hp Hm. rewrite assoc_dict_set.
      apply String.eqb_neq in Hm. rewrite Hm. rewrite assoc_dict_set.
      apply String.eqb_neq in Hp. rewrite Hp. reflexivity.
Qed.
